(** * tweets_app.py: a rate-limit-aware client for liking tweets

    A shallow embedding of the functions of [tweets_app.py] that talk to
    the Twitter API and keep the rate-limit bookkeeping in Streamlit's
    session state:

    - [authenticate_twitter], [extract_rate_limit_info], [check_tweet],
      [like_tweet] are the module-level functions of the same names;
    - [rate_limit_status], [like_button] and [countdown] are the blocks of
      [main] that read and update the bookkeeping (the "Rate Limit Status"
      column, the "Like Tweet" button and its countdown loop).

    The program is stateful: it mutates [st.session_state], reads the wall
    clock, calls the remote API through a tweepy client and writes to the
    page.  All four effects are threaded through one monad over a [world]
    whose [log] keeps, in order, every remote call and every page output. *)

From Stdlib Require Import ZArith QArith Qminmax Lia.
From Stdlib Require Import DecimalString.
From stdpp Require Import base option list gmap strings.

Local Open Scope Z_scope.
Local Open Scope string_scope.

(** ** Python values the program handles *)

(** The line feed of the ["\n"] escapes in the source's messages. *)
Definition nl : string := String (Ascii.ascii_of_nat 10) EmptyString.

(** What the program takes from the Python runtime rather than defining
    itself: parsing and formatting of numbers and of clock times.  The
    development is parametric in them. *)
Class PyRuntime := {
  (** [int(s)] on a string; [None] stands for [ValueError]. *)
  int_of_str : string -> option Z;
  (** [f"{n}"] for an integer. *)
  str_of_int : Z -> string;
  (** [f"{n:02d}"]. *)
  fmt_02d : Z -> string;
  (** [f"{x:.0f}"] for a float. *)
  fmt_0f : Q -> string;
  (** [time.strftime('%H:%M:%S', time.localtime(t))]. *)
  fmt_hms : Z -> string
}.

(** Readings of [time.time()] are floats.  Every finite float is a
    rational, and the program only subtracts readings, compares the
    differences with [0] and [1] and truncates them with [int]; they are
    modelled as rationals, with exact arithmetic. *)
Definition int_of_float (x : Q) : Z := Z.quot (Qnum x) (Z.pos (Qden x)).

Definition Qltb (x y : Q) : bool :=
  match (x ?= y)%Q with Lt => true | _ => false end.

Definition Qleb (x y : Q) : bool :=
  match (x ?= y)%Q with Gt => false | _ => true end.

(** A [requests] response attached to a tweepy exception.  Header names
    are the lower-case ones the source looks up. *)
Record response := Response {
  status_code : Z;
  (** [None] when reading [.text] raises. *)
  text : option string;
  headers : gmap string string
}.

(** The exception classes the source tells apart, and the ones it can
    raise itself. *)
Inductive exn_class :=
  | TooManyRequests
  | Unauthorized
  | NotFound
  | Forbidden
  | ValueError
  | AttributeError
  | OtherException.

Record exn := Exn {
  exn_class_of : exn_class;
  (** [str(e)] *)
  exn_str : string;
  (** [e.response], [None] when the attribute is missing or is [None]. *)
  exn_response : option response
}.

Inductive outcome (A : Type) :=
  | Returns (a : A)
  | Raises (e : exn).
Arguments Returns {A} a.
Arguments Raises {A} e.

Record user := User { user_id : Z; username : string }.

(** [tweet.data]; [tweet_text] is [None] when the object has no [text]
    attribute. *)
Record tweet := Tweet { tweet_text : option string }.

(** A [tweepy.Client], seen through the three calls the program makes.
    [None] in [get_me] and [get_tweet] is a response that is falsy or
    whose [data] is; [like] gives [str(response)]. *)
Record Client := {
  get_me : outcome (option user);
  get_tweet : string -> outcome (option tweet);
  like : string -> outcome string
}.

(** ** Session state *)

(** The keys of [st.session_state] the program uses; [None] is a key that
    is not set ([client] is set to [None] by the Setup tab before any
    other use, so there [None] is the Python value). *)
Record session_state := Session {
  client : option Client;
  authenticated : option bool;
  user_info : option user;
  rate_limited : option bool;
  rate_limit_reset : option Z;
  rate_limit_retry_after : option Z;
  last_request_time : option (list Q);
  cancel_countdown : option bool;
  last_response : option string
}.

Definition empty_session : session_state :=
  Session None None None None None None None None None.

Definition set_client v s :=
  Session v (authenticated s) (user_info s) (rate_limited s)
    (rate_limit_reset s) (rate_limit_retry_after s) (last_request_time s)
    (cancel_countdown s) (last_response s).
Definition set_authenticated v s :=
  Session (client s) v (user_info s) (rate_limited s)
    (rate_limit_reset s) (rate_limit_retry_after s) (last_request_time s)
    (cancel_countdown s) (last_response s).
Definition set_user_info v s :=
  Session (client s) (authenticated s) v (rate_limited s)
    (rate_limit_reset s) (rate_limit_retry_after s) (last_request_time s)
    (cancel_countdown s) (last_response s).
Definition set_rate_limited v s :=
  Session (client s) (authenticated s) (user_info s) v
    (rate_limit_reset s) (rate_limit_retry_after s) (last_request_time s)
    (cancel_countdown s) (last_response s).
Definition set_rate_limit_reset v s :=
  Session (client s) (authenticated s) (user_info s) (rate_limited s)
    v (rate_limit_retry_after s) (last_request_time s)
    (cancel_countdown s) (last_response s).
Definition set_rate_limit_retry_after v s :=
  Session (client s) (authenticated s) (user_info s) (rate_limited s)
    (rate_limit_reset s) v (last_request_time s)
    (cancel_countdown s) (last_response s).
Definition set_last_request_time v s :=
  Session (client s) (authenticated s) (user_info s) (rate_limited s)
    (rate_limit_reset s) (rate_limit_retry_after s) v
    (cancel_countdown s) (last_response s).
Definition set_cancel_countdown v s :=
  Session (client s) (authenticated s) (user_info s) (rate_limited s)
    (rate_limit_reset s) (rate_limit_retry_after s) (last_request_time s)
    v (last_response s).
Definition set_last_response v s :=
  Session (client s) (authenticated s) (user_info s) (rate_limited s)
    (rate_limit_reset s) (rate_limit_retry_after s) (last_request_time s)
    (cancel_countdown s) v.

(** ** The world and its monad *)

(** What the program does that the outside can see, in the order it does
    it: calls on the client, and writes to the page. *)
Inductive event :=
  | CallGetMe
  | CallGetTweet (tweet_id : string)
  | CallLike (tweet_id : string)
  | StError (msg : string)
  | StSuccess (msg : string)
  | StWarning (msg : string)
  | StWrite (msg : string)
  | StEmpty
  | PhMetric (label value : string)
  | PhEmpty
  | Sleep (seconds : Z).

(** [clock n] is the [n]-th reading of [time.time()].  Session state is
    shared with the host: [interference n] is what the host does to it
    while the program is suspended in its [n]-th [time.sleep]. *)
Record world := World {
  session : session_state;
  clock : nat -> Q;
  reads : nat;
  interference : nat -> session_state -> session_state;
  sleeps : nat;
  log : list event
}.

Inductive result (A : Type) :=
  | Ret (a : A)
  | Raise (e : exn).
Arguments Ret {A} a.
Arguments Raise {A} e.

Definition M (A : Type) : Type := world -> result A * world.

#[global] Instance M_ret : MRet M := fun A a w => (Ret a, w).
#[global] Instance M_bind : MBind M := fun A B f m w =>
  match m w with
  | (Ret a, w') => f a w'
  | (Raise e, w') => (Raise e, w')
  end.

Definition raise {A} (e : exn) : M A := fun w => (Raise e, w).

(** [try: m except Exception as e: handler e].  An exception raised by
    the handler itself is not caught. *)
Definition try_except {A} (m : M A) (handler : exn -> M A) : M A := fun w =>
  match m w with
  | (Ret a, w') => (Ret a, w')
  | (Raise e, w') => handler e w'
  end.

(** The four ways the program changes the world. *)
Definition with_session (s : session_state) (w : world) : world :=
  World s (clock w) (reads w) (interference w) (sleeps w) (log w).

Definition logged (evs : list event) (w : world) : world :=
  World (session w) (clock w) (reads w) (interference w) (sleeps w)
        (log w ++ evs).

Definition clock_read (w : world) : world :=
  World (session w) (clock w) (S (reads w)) (interference w) (sleeps w)
        (log w).

Definition slept (w : world) : world :=
  World (interference w (sleeps w) (session w)) (clock w) (reads w)
        (interference w) (S (sleeps w)) (log w).

Definition get_session : M session_state := fun w => (Ret (session w), w).

Definition modify_session (f : session_state -> session_state) : M unit :=
  fun w => (Ret tt, with_session (f (session w)) w).

Definition emit (e : event) : M unit := fun w => (Ret tt, logged [e] w).

Definition time_time : M Q :=
  fun w => (Ret (clock w (reads w)), clock_read w).

Definition time_sleep (seconds : Z) : M unit :=
  fun w => (Ret tt, slept (logged [Sleep seconds] w)).

(** [st.session_state.<key>] for a key that may be missing. *)
Definition attr {A} (key : string) (field : session_state -> option A) : M A :=
  s ← get_session;
  match field s with
  | Some v => mret v
  | None => raise (Exn AttributeError key None)
  end.

Definition of_outcome {A} (o : outcome A) : M A :=
  match o with
  | Returns a => mret a
  | Raises e => raise e
  end.

Definition client_get_me (c : Client) : M (option user) :=
  emit CallGetMe;; of_outcome (get_me c).

Definition client_get_tweet (c : Client) (tweet_id : string) : M (option tweet) :=
  emit (CallGetTweet tweet_id);; of_outcome (get_tweet c tweet_id).

Definition client_like (c : Client) (tweet_id : string) : M string :=
  emit (CallLike tweet_id);; of_outcome (like c tweet_id).

(** ** The functions of the module *)

Section App.
Context {py : PyRuntime}.

Definition py_int (s : string) : M Z :=
  match int_of_str s with
  | Some n => mret n
  | None => raise (Exn ValueError ("invalid literal for int(): " +:+ s) None)
  end.

(** The dictionary [extract_rate_limit_info] returns. *)
Record rate_info := RateInfo {
  reset_time : Z;
  retry_after : Z;
  formatted_time : string
}.

Definition extract_rate_limit_info (error : exn) : M rate_info :=
  now ← time_time;
  let reset_time := int_of_float now + 3 * 60 in
  let retry_after := 3 * 60 in
  '(reset_time, retry_after) ←
    match exn_response error with
    | Some r =>
      match headers r !! "x-rate-limit-reset" with
      | Some v =>
        reset_time ← py_int v;
        now ← time_time;
        mret (reset_time, Z.max (reset_time - int_of_float now) 0)
      | None =>
        match headers r !! "retry-after" with
        | Some v =>
          retry_after ← py_int v;
          now ← time_time;
          mret (int_of_float now + retry_after, retry_after)
        | None => mret (reset_time, retry_after)
        end
      end
    | None => mret (reset_time, retry_after)
    end;
  mret (RateInfo reset_time retry_after (fmt_hms reset_time)).

Definition check_tweet (c : Client) (tweet_id : string) : M (bool * string) :=
  try_except
    (tweet ← client_get_tweet c tweet_id;
     match tweet with
     | Some data =>
       mret (true, match tweet_text data with
                   | Some t => t
                   | None => "Tweet exists but content not accessible"
                   end)
     | None => mret (false, "Tweet not found or not accessible")
     end)
    (fun e =>
       match exn_class_of e with
       | NotFound => mret (false, "Tweet not found")
       | _ => mret (false, "Error checking tweet: " +:+ exn_str e)
       end).

(** The [if hasattr(e, 'response') ...: try: error_msg += Details]
    block that ends four of the handlers of [like_tweet]. *)
Definition with_details (e : exn) (error_msg : string) : string :=
  match exn_response e with
  | Some r =>
    match text r with
    | Some t => error_msg +:+ nl +:+ "Details: " +:+ t
    | None => error_msg
    end
  | None => error_msg
  end.

(** Lines 189-195: the time of a successful request is appended to
    [last_request_time], created empty when missing, and the head is
    popped when more than ten are kept. *)
Definition record_request_time (now : Q) (s : session_state) : session_state :=
  let times := (default [] (last_request_time s) ++ [now])%list in
  set_last_request_time
    (Some (if (10 <? length times)%nat then drop 1 times else times)) s.

Definition like_tweet (client : option Client) (tweet_id : string)
  : M (bool * string) :=
  match client with
  | None => mret (false, "Client not authenticated. Please authenticate first.")
  | Some c =>
    try_except
      ('(tweet_exists, tweet_text) ← check_tweet c tweet_id;
       if negb tweet_exists then
         mret (false, "Cannot like tweet: " +:+ tweet_text)
       else
         response ← client_like c tweet_id;
         modify_session (set_last_response (Some response));;
         now ← time_time;
         modify_session (record_request_time now);;
         mret (true, "Tweet liked successfully! Response: " +:+ response))
      (fun e =>
         match exn_class_of e with
         | TooManyRequests =>
           rate_info ← extract_rate_limit_info e;
           modify_session (set_rate_limited (Some true));;
           modify_session (set_rate_limit_reset (Some (reset_time rate_info)));;
           modify_session
             (set_rate_limit_retry_after (Some (retry_after rate_info)));;
           mret (false,
                 with_details e
                   ("Rate limit exceeded. Twitter's rate limits will reset at "
                    +:+ formatted_time rate_info +:+ " (in "
                    +:+ str_of_int (retry_after rate_info) +:+ " seconds)."))
         | Unauthorized =>
           mret (false,
                 with_details e
                   "Authentication error. Please check your credentials.")
         | NotFound =>
           mret (false,
                 with_details e ("Tweet with ID " +:+ tweet_id +:+ " not found."))
         | Forbidden =>
           mret (false,
                 with_details e
                   ("Forbidden to like tweet with ID " +:+ tweet_id
                    +:+ ". You may lack proper permissions."))
         | _ =>
           let error_msg := "Error liking tweet: " +:+ exn_str e in
           mret (false,
                 match exn_response e with
                 | Some r =>
                   match text r with
                   | Some t =>
                     error_msg +:+ nl +:+ "Status: "
                     +:+ str_of_int (status_code r) +:+ nl
                     +:+ "Details: " +:+ t
                   | None => error_msg
                   end
                 | None => error_msg
                 end)
         end)
  end.

Record credentials := Credentials {
  bearer_token : string;
  api_key : string;
  api_secret : string;
  access_token : string;
  access_secret : string
}.

(** [tweepy_Client] is the constructor [tweepy.Client(...)], which makes
    no call by itself. *)
Definition authenticate_twitter (tweepy_Client : credentials -> Client)
    (creds : credentials) : M (option Client * bool * string) :=
  try_except
    (let c := tweepy_Client creds in
     me ← client_get_me c;
     match me with
     | Some data =>
       mret (Some c, true,
             "Authentication successful! Logged in as @" +:+ username data
             +:+ " (ID: " +:+ str_of_int (user_id data) +:+ ")")
     | None =>
       mret (None, false,
             "Authentication successful but couldn't fetch user details")
     end)
    (fun e =>
       let error_msg := "Authentication failed: " +:+ exn_str e in
       mret (None, false,
             match exn_response e with
             | Some r =>
               let error_msg :=
                 error_msg +:+ nl +:+ "Status: " +:+ str_of_int (status_code r) in
               match text r with
               | Some t => error_msg +:+ nl +:+ "Details: " +:+ t
               | None => error_msg
               end
             | None => error_msg
             end)).

(** ** The blocks of [main] *)

(** Lines 367-393, the "Authenticate" button of the Setup tab. *)
Definition authenticate_button (tweepy_Client : credentials -> Client)
    (creds : credentials) : M unit :=
  if negb (forallb (fun s => negb (String.eqb s ""))
             [bearer_token creds; api_key creds; api_secret creds;
              access_token creds; access_secret creds])
  then emit (StError "Please fill in all credentials")
  else
    '(client, success, message) ← authenticate_twitter tweepy_Client creds;
    if (success : bool) then
      emit (StSuccess message);;
      modify_session (set_client client);;
      modify_session (set_authenticated (Some true));;
      try_except
        (match client with
         | Some c =>
           me ← client_get_me c;
           match me with
           | Some data => modify_session (set_user_info (Some data))
           | None => mret tt
           end
         | None => raise (Exn AttributeError "get_me" None)
         end)
        (fun e =>
           emit (StWarning
                   ("Authenticated but couldn't get user details: "
                    +:+ exn_str e)))
    else
      emit (StError message);;
      modify_session (set_authenticated (Some false));;
      modify_session (set_client None);;
      modify_session (set_user_info None).

(** Line 436, the capacity estimate shown in the status column. *)
Definition est_remaining (recent_count : nat) (time_span : Q) : Q :=
  Qmax (50 - inject_Z (Z.of_nat recent_count * (24 * 60 * 60))
             / Qmax time_span 1) 0.

(** Lines 443 and 478: the seconds left until the recorded reset. *)
Definition remaining_time (reset : Z) (now : Q) : Q :=
  Qmax (inject_Z reset - now) 0.

(** Lines 429-439, the first half of the "Rate Limit Status" column. *)
Definition capacity_estimate : M unit :=
  s ← get_session;
  match last_request_time s with
  | Some ((oldest_time :: _) as times) =>
    let recent_count := length times in
    now ← time_time;
    let time_span := (now - oldest_time)%Q in
    emit (StWrite ("Recent requests: " +:+ str_of_int (Z.of_nat recent_count)
                   +:+ " in the last " +:+ fmt_0f time_span +:+ " seconds"));;
    emit (StWrite ("Estimated remaining capacity: ~"
                   +:+ fmt_0f (est_remaining recent_count time_span)
                   +:+ " requests"))
  | _ => emit (StWrite "No recent requests tracked")
  end.

(** Lines 442-451, its second half. *)
Definition rate_limit_warning : M unit :=
  s ← get_session;
  if default false (rate_limited s) then
    reset ← attr "rate_limit_reset" rate_limit_reset;
    now ← time_time;
    if Qleb (remaining_time reset now) 0 then
      modify_session (set_rate_limited (Some false))
    else
      emit (StWarning ("⚠️ Rate limited! Resets in "
                       +:+ fmt_0f (remaining_time reset now) +:+ " seconds"));;
      reset ← attr "rate_limit_reset" rate_limit_reset;
      emit (StWrite ("Reset time: " +:+ fmt_hms reset))
  else mret tt.

Definition rate_limit_status : M unit :=
  capacity_estimate;; rate_limit_warning.

(** [list(range(n, 0, -1))]. *)
Definition range_down (n : Z) : list Z :=
  map (fun i => n - Z.of_nat i) (seq 0 (Z.to_nat n)).

(** How the [for] loop of the countdown is left: by exhausting its range,
    or through its [break]. *)
Inductive countdown_exit := Completed | Cancelled.

(** Lines 510-511, the text of one tick. *)
Definition countdown_text (remaining : Z) : string :=
  let minutes := remaining / 60 in
  let seconds := remaining mod 60 in
  fmt_02d minutes +:+ ":" +:+ fmt_02d seconds.

(** Lines 505-513, the loop over the remaining seconds. *)
Fixpoint countdown (remainings : list Z) : M countdown_exit :=
  match remainings with
  | [] => mret Completed
  | remaining :: rest =>
    s ← get_session;
    if default false (cancel_countdown s) then mret Cancelled
    else
      emit (PhMetric "Time until rate limit reset" (countdown_text remaining));;
      time_sleep 1;;
      countdown rest
  end.

(** Lines 486-490 and 493-497: the call of [like_tweet] and the report
    of its message. *)
Definition like_and_report (tweet_id : string) : M bool :=
  s ← get_session;
  '(success, message) ← like_tweet (client s) tweet_id;
  (if (success : bool) then emit (StSuccess message)
   else emit (StError message));;
  mret success.

(** Lines 473-523, the "Like Tweet" button, once pressed. *)
Definition like_button (tweet_id : string) : M unit :=
  if String.eqb tweet_id "" then emit (StError "Please enter a Tweet ID")
  else
    s ← get_session;
    if default false (rate_limited s) then
      reset ← attr "rate_limit_reset" rate_limit_reset;
      now ← time_time;
      if Qltb 0 (remaining_time reset now) then
        emit (StError ("Currently rate limited. Please wait "
                       +:+ fmt_0f (remaining_time reset now)
                       +:+ " seconds before trying again."))
      else
        modify_session (set_rate_limited (Some false));;
        like_and_report tweet_id;;
        mret tt
    else
      success ← like_and_report tweet_id;
      if (success : bool) then mret tt
      else
        s ← get_session;
        if default false (rate_limited s) then
          _ ← attr "rate_limit_reset" rate_limit_reset;
          emit StEmpty;;
          total ← attr "rate_limit_retry_after" rate_limit_retry_after;
          countdown (range_down total);;
          modify_session (set_cancel_countdown (Some false));;
          emit PhEmpty;;
          modify_session (set_rate_limited (Some false));;
          emit (StSuccess "Rate limit reset. You can try again now.")
        else mret tt.

(** Lines 395-523, the "Like Tweet" tab: the gate on authentication, the
    status column, and the button when [pressed].  The line that shows
    the user's name and the preview button are left out. *)
Definition like_tab (tweet_id : string) (pressed : bool) : M unit :=
  s ← get_session;
  if negb (default false (authenticated s)) then
    emit (StWarning "Please authenticate in the Setup tab first")
  else
    rate_limit_status;;
    if pressed then like_button tweet_id else mret tt.

End App.

(** ** The rest of the module *)

(** The dictionary [get_rate_limit_status] returns; [status_user_id] is
    [None] when the dictionary has no ['user_id'] key. *)
Record rate_limit_status_info := RateLimitStatus {
  status_user_id : option Z;
  status_remaining : string;
  status_limit : string;
  status_reset_time : Z
}.

(** Lines 95-129.  The [client] argument may be [None]: the call on it
    then raises inside the [try]. *)
Definition get_rate_limit_status (client : option Client)
  : M rate_limit_status_info :=
  try_except
    (match client with
     | None =>
       raise (Exn AttributeError
                "'NoneType' object has no attribute 'get_me'" None)
     | Some c =>
       me ← client_get_me c;
       match me with
       | None =>
         now ← time_time;
         mret (RateLimitStatus None "Unknown" "Unknown"
                 (int_of_float now + 3 * 60))
       | Some data =>
         let user_id := user_id data in
         try_except (client_get_tweet c "1";; mret tt) (fun _ => mret tt);;
         now ← time_time;
         mret (RateLimitStatus (Some user_id) "Unknown"
                 "50 likes per 24 hours (standard)"
                 (int_of_float now + 3 * 60))
       end
     end)
    (fun e =>
       emit (StWarning ("Could not fetch rate limit status: " +:+ exn_str e));;
       now ← time_time;
       mret (RateLimitStatus None "Unknown" "Unknown"
               (int_of_float now + 3 * 60))).

(** [st.secrets], a mapping of sections to mappings of keys to strings. *)
Abbreviation secrets := (gmap string (gmap string string)).

(** The two keys of [st.session_state] that [check_password] uses; they
    are disjoint from those of [session_state]. *)
Record password_state := PasswordState {
  password : option string;
  password_correct : option bool
}.

(** Lines 35-41, the callback of the password input.  [None] stands for
    the [KeyError] of a missing key, in the session or in the secrets. *)
Definition password_entered (sec : secrets) (s : password_state)
  : option password_state :=
  entered ← password s;
  app ← sec !! "app";
  expected ← app !! "password";
  if String.eqb entered expected
  then Some (PasswordState None (Some true))
  else Some (PasswordState (password s) (Some false)).

(** What [check_password] puts on the page. *)
Inductive password_output :=
  | PasswordInput
  | PasswordIncorrect.

(** Lines 43-58. *)
Definition check_password (s : password_state) : bool * list password_output :=
  match password_correct s with
  | None => (false, [PasswordInput])
  | Some false => (false, [PasswordInput; PasswordIncorrect])
  | Some true => (true, [])
  end.

(** What Streamlit does when the user changes the input of key
    ["password"]: the text goes into the session state under that key,
    then the [on_change] callback runs. *)
Definition type_password (sec : secrets) (typed : string)
    (s : password_state) : option password_state :=
  password_entered sec (PasswordState (Some typed) (password_correct s)).

(** Lines 342-351: the value each credential input starts with. *)
Definition default_credential (sec : secrets) (key : string) : string :=
  match sec !! "twitter" with
  | Some twitter => default "" (twitter !! key)
  | None => ""
  end.

Definition default_credentials (sec : secrets) : credentials :=
  Credentials (default_credential sec "bearer_token")
              (default_credential sec "api_key")
              (default_credential sec "api_secret")
              (default_credential sec "access_token")
              (default_credential sec "access_secret").

(** ** A runtime to evaluate the program with *)

(** [int] on strings of decimal digits, with or without a minus sign
    in front. *)
Definition decimal_int_of_str (s : string) : option Z :=
  option_map Z.of_int (NilZero.int_of_string s).

Definition decimal_str_of_int (n : Z) : string :=
  NilZero.string_of_int (Z.to_int n).

Definition decimal_02d (n : Z) : string :=
  if ((0 <=? n)%Z && (n <? 10)%Z)%bool then "0" +:+ decimal_str_of_int n
  else decimal_str_of_int n.

(** Rounding to the nearest integer, ties to even, of a non-negative
    rational. *)
Definition round_half_even (x : Q) : Z :=
  let n := Qnum x in
  let d := Z.pos (Qden x) in
  let q := n / d in
  let r := n mod d in
  match (2 * r ?= d)%Z with
  | Lt => q
  | Gt => q + 1
  | Eq => if Z.even q then q else q + 1
  end.

Definition decimal_0f (x : Q) : string :=
  if Qltb x 0 then "-" +:+ decimal_str_of_int (round_half_even (- x))
  else decimal_str_of_int (round_half_even x).

(** The clock time of day, for a local zone at UTC. *)
Definition utc_hms (t : Z) : string :=
  let s := t mod 86400 in
  decimal_02d (s / 3600) +:+ ":" +:+ decimal_02d (s mod 3600 / 60)
  +:+ ":" +:+ decimal_02d (s mod 60).

Definition decimal_runtime : PyRuntime := {|
  int_of_str := decimal_int_of_str;
  str_of_int := decimal_str_of_int;
  fmt_02d := decimal_02d;
  fmt_0f := decimal_0f;
  fmt_hms := utc_hms
|}.

(** ** Notions the statements use *)

(** What [check_tweet] answers, from what the fetch gave. *)
Definition check_verdict (o : outcome (option tweet)) : bool * string :=
  match o with
  | Returns (Some data) =>
    (true, default "Tweet exists but content not accessible" (tweet_text data))
  | Returns None => (false, "Tweet not found or not accessible")
  | Raises e =>
    match exn_class_of e with
    | NotFound => (false, "Tweet not found")
    | _ => (false, "Error checking tweet: " +:+ exn_str e)
    end
  end.

(** [e.response.headers[name]], when there is a response with that header. *)
Definition header (e : exn) (name : string) : option string :=
  match exn_response e with
  | Some r => headers r !! name
  | None => None
  end.

(** The events that are calls on the client. *)
Definition is_remote_call (e : event) : bool :=
  match e with
  | CallGetMe | CallGetTweet _ | CallLike _ => true
  | _ => false
  end.

(** The calls on the client among the events of a log. *)
Definition remote_calls (evs : list event) : list event :=
  List.filter is_remote_call evs.

(** The calls one run of [like_tweet] makes. *)
Definition attempt_calls (client : option Client) (tweet_id : string)
  : list event :=
  match client with
  | None => []
  | Some c =>
    CallGetTweet tweet_id
    :: (if (check_verdict (get_tweet c tweet_id)).1
        then [CallLike tweet_id] else [])
  end.

(** The test of lines 477-479 on a session, at the clock reading [now]:
    the button does not go on to [like_tweet].  (When [rate_limited] is
    set without a reset time, reading the reset time raises.) *)
Definition blocked (s : session_state) (now : Q) : bool :=
  default false (rate_limited s)
  && match rate_limit_reset s with
     | Some reset => Qltb 0 (remaining_time reset now)
     | None => true
     end.

(** The request times on record, none when the key is not set: the
    spec's [recentSuccesses]. *)
Definition recent_successes (s : session_state) : list Q :=
  default [] (last_request_time s).

(** Recording the times [ts], oldest first. *)
Definition record_all (ts : list Q) (s : session_state) : session_state :=
  fold_left (fun s t => record_request_time t s) ts s.



(** The world after the two calls of a verified attempt. *)
Definition called (tweet_id : string) (w : world) : world :=
  logged [CallLike tweet_id] (logged [CallGetTweet tweet_id] w).

(** The rate-limit fields of the session: the spec's [activeLimit]. *)
Definition active_limit (s : session_state) : option bool * option Z * option Z :=
  (rate_limited s, rate_limit_reset s, rate_limit_retry_after s).

(** The ticks of the countdown among the events of a log. *)
Fixpoint ticks_shown (evs : list event) : list string :=
  match evs with
  | [] => []
  | PhMetric _ value :: evs => value :: ticks_shown evs
  | _ :: evs => ticks_shown evs
  end.

(** The header [extract_rate_limit_info] reads, when there is one. *)
Definition used_header (e : exn) : option string :=
  match header e "x-rate-limit-reset" with
  | Some v => Some v
  | None => header e "retry-after"
  end.

(** What the countdown logs for the seconds [remainings]: a tick and a
    sleep for each. *)
Definition tick_events {py : PyRuntime} (remainings : list Z) : list event :=
  flat_map (fun remaining =>
              [PhMetric "Time until rate limit reset" (countdown_text remaining);
               Sleep 1])
           remainings.

(** The host never sets [cancel_countdown]. *)
Definition never_cancels (w : world) : Prop :=
  forall n s,
    default false (cancel_countdown s) = false ->
    default false (cancel_countdown (interference w n s)) = false.

(** Typing the passwords [typed] one after the other. *)
Fixpoint type_passwords (sec : secrets) (typed : list string)
    (s : password_state) : option password_state :=
  match typed with
  | [] => Some s
  | t :: rest => s' ← type_password sec t s; type_passwords sec rest s'
  end.

(** Line 368: whether all five credentials are filled in. *)
Definition filled (creds : credentials) : bool :=
  forallb (fun s => negb (String.eqb s ""))
    [bearer_token creds; api_key creds; api_secret creds;
     access_token creds; access_secret creds].

(** The password the secrets hold, when they hold one. *)
Definition expected_password (sec : secrets) : option string :=
  app ← sec !! "app"; app !! "password".

(** ** Sample worlds *)

(** A world at rest: the clock stands at [now], the host leaves the
    session alone, nothing has happened yet. *)
Definition frozen_world (s : session_state) (now : Q) : world :=
  World s (fun _ => now) 0 (fun _ s => s) 0 [].

(** The same, with a host that asks for cancellation during every
    sleep. *)
Definition cancelling_world (s : session_state) (now : Q) : world :=
  World s (fun _ => now) 0 (fun _ s => set_cancel_countdown (Some true) s)
        0 [].

(** A client whose fetch and write have the given outcomes for every
    tweet. *)
Definition sample_client (fetched : outcome (option tweet))
    (liked : outcome string) : Client :=
  {| get_me := Returns (Some (User 7 "someone"));
     get_tweet := fun _ => fetched;
     like := fun _ => liked |}.

(** A fetch that finds the tweet. *)
Definition found : outcome (option tweet) :=
  Returns (Some (Tweet (Some "hello"))).

(** A 429 response raised as [tweepy.TooManyRequests]. *)
Definition too_many_requests (hdrs : gmap string string) : exn :=
  Exn TooManyRequests "429 Too Many Requests"
      (Some (Response 429 (Some "Too Many Requests") hdrs)).

(** A session in which a rate limit that resets at second 1200 is on
    record. *)
Definition limited_session : session_state :=
  set_rate_limit_retry_after (Some 200)
    (set_rate_limit_reset (Some 1200)
       (set_rate_limited (Some true)
          (set_client (Some (sample_client found (Returns "ok")))
             empty_session))).

(** Secrets with the password of the app. *)
Definition sample_secrets : secrets :=
  {["app" := {["password" := "sesame"]}]}.

(** * Properties *)

Section Proofs.
Context {py : PyRuntime}.

(** ** Comparing clock readings *)

Lemma Qltb_lt x y : Qltb x y = true <-> (x < y)%Q.
Proof.
  unfold Qltb. rewrite Qlt_alt. destruct (x ?= y)%Q; split; congruence.
Qed.

Lemma Qleb_le x y : Qleb x y = true <-> (x <= y)%Q.
Proof.
  unfold Qleb. rewrite Qle_alt. destruct (x ?= y)%Q; split; congruence.
Qed.

Lemma remaining_time_pos reset now :
  Qltb 0 (remaining_time reset now) = true <-> (now < inject_Z reset)%Q.
Proof.
  rewrite Qltb_lt. unfold remaining_time.
  destruct (Q.max_spec (inject_Z reset - now) 0) as [[Hlt ->] | [Hle ->]].
  - split; intros H.
    + exfalso. apply (Qlt_irrefl 0), H.
    + apply Qlt_minus_iff in H. exfalso.
      apply (Qlt_irrefl 0). eapply Qlt_trans; [exact H | exact Hlt].
  - split; intros H.
    + apply Qlt_minus_iff. exact H.
    + apply Qlt_minus_iff in H. exact H.
Qed.

Lemma remaining_time_zero reset now :
  Qleb (remaining_time reset now) 0 = true <-> (inject_Z reset <= now)%Q.
Proof.
  destruct (Qlt_le_dec now (inject_Z reset)) as [Hlt | Hle].
  - split; intros H.
    + apply Qleb_le in H. apply remaining_time_pos, Qltb_lt in Hlt.
      exfalso. apply (Qlt_irrefl 0). eapply Qlt_le_trans; eauto.
    + exfalso. apply (Qlt_irrefl now). eapply Qlt_le_trans; eauto.
  - split; intros _; [exact Hle|].
    apply Qleb_le. apply Qnot_lt_le. intros H.
    apply Qltb_lt, remaining_time_pos in H.
    apply (Qlt_irrefl now). eapply Qlt_le_trans; eauto.
Qed.

(** ** What each function returns *)

Lemma check_tweet_run c tweet_id w :
  check_tweet c tweet_id w
  = (Ret (check_verdict (get_tweet c tweet_id)), logged [CallGetTweet tweet_id] w).
Proof.
  unfold check_tweet, try_except, client_get_tweet, check_verdict.
  unfold mbind, M_bind, emit, of_outcome, mret, M_ret, raise.
  destruct (get_tweet c tweet_id) as [[[[t|]]|]|e]; try reflexivity.
  destruct (exn_class_of e); reflexivity.
Qed.

Ltac run :=
  unfold attr, py_int in *;
  unfold mbind, M_bind, mret, M_ret, raise, try_except, emit, of_outcome,
    get_session, modify_session, time_time in *.




Lemma extract_unreadable e w v :
  (header e "x-rate-limit-reset" = Some v
   \/ header e "x-rate-limit-reset" = None /\ header e "retry-after" = Some v) ->
  int_of_str v = None ->
  exists err, extract_rate_limit_info e w = (Raise err, clock_read w)
              /\ exn_class_of err = ValueError.
Proof.
  unfold header, extract_rate_limit_info. run. intros Hhdr Hint.
  destruct (exn_response e) as [r|]; [|destruct Hhdr as [?|[_ ?]]; discriminate].
  destruct Hhdr as [Hreset | [Hreset Hretry]].
  - rewrite Hreset, Hint. eexists. split; reflexivity.
  - rewrite Hreset, Hretry, Hint. eexists. split; reflexivity.
Qed.

(** Whatever the headers, the extraction only reads the clock. *)
Lemma extract_frame e w r w' :
  extract_rate_limit_info e w = (r, w') ->
  session w' = session w /\ log w' = log w /\ sleeps w' = sleeps w
  /\ clock w' = clock w /\ interference w' = interference w
  /\ (reads w < reads w')%nat.
Proof.
  unfold extract_rate_limit_info. run.
  destruct (exn_response e) as [resp|].
  - destruct (headers resp !! "x-rate-limit-reset") as [v|].
    + destruct (int_of_str v); intros [= <- <-]; simpl; repeat split; lia.
    + destruct (headers resp !! "retry-after") as [v|].
      * destruct (int_of_str v); intros [= <- <-]; simpl; repeat split; lia.
      * intros [= <- <-]; simpl; repeat split; lia.
  - intros [= <- <-]; simpl; repeat split; lia.
Qed.

Lemma like_tweet_no_client tweet_id w :
  like_tweet None tweet_id w
  = (Ret (false, "Client not authenticated. Please authenticate first."), w).
Proof. reflexivity. Qed.

Lemma like_tweet_unverified c tweet_id w :
  (check_verdict (get_tweet c tweet_id)).1 = false ->
  like_tweet (Some c) tweet_id w
  = (Ret (false,
          "Cannot like tweet: " +:+ (check_verdict (get_tweet c tweet_id)).2),
     logged [CallGetTweet tweet_id] w).
Proof.
  intros Hno. unfold like_tweet. run. rewrite check_tweet_run.
  destruct (check_verdict (get_tweet c tweet_id)) as [ok txt].
  simpl in Hno. subst ok. reflexivity.
Qed.

Lemma like_tweet_liked c tweet_id w response :
  (check_verdict (get_tweet c tweet_id)).1 = true ->
  like c tweet_id = Returns response ->
  like_tweet (Some c) tweet_id w
  = (Ret (true, "Tweet liked successfully! Response: " +:+ response),
     with_session
       (record_request_time (clock w (reads w))
          (set_last_response (Some response) (session w)))
       (clock_read (called tweet_id w))).
Proof.
  intros Hok Hlike. unfold like_tweet, client_like. run.
  rewrite check_tweet_run.
  destruct (check_verdict (get_tweet c tweet_id)) as [ok txt].
  simpl in Hok. subst ok. simpl. rewrite Hlike. reflexivity.
Qed.

Lemma like_tweet_limited c tweet_id w e info w' :
  (check_verdict (get_tweet c tweet_id)).1 = true ->
  like c tweet_id = Raises e ->
  exn_class_of e = TooManyRequests ->
  extract_rate_limit_info e (called tweet_id w) = (Ret info, w') ->
  like_tweet (Some c) tweet_id w
  = (Ret (false,
          with_details e
            ("Rate limit exceeded. Twitter's rate limits will reset at "
             +:+ formatted_time info +:+ " (in "
             +:+ str_of_int (retry_after info) +:+ " seconds).")),
     with_session
       (set_rate_limit_retry_after (Some (retry_after info))
          (set_rate_limit_reset (Some (reset_time info))
             (set_rate_limited (Some true) (session w'))))
       w').
Proof.
  intros Hok Hlike Hclass Hinfo. unfold like_tweet, client_like. run.
  rewrite check_tweet_run.
  destruct (check_verdict (get_tweet c tweet_id)) as [ok txt].
  simpl in Hok. subst ok. simpl. rewrite Hlike. simpl. rewrite Hclass.
  unfold called in Hinfo. rewrite Hinfo. destruct w'; reflexivity.
Qed.

Lemma like_tweet_limited_unreadable c tweet_id w e err w' :
  (check_verdict (get_tweet c tweet_id)).1 = true ->
  like c tweet_id = Raises e ->
  exn_class_of e = TooManyRequests ->
  extract_rate_limit_info e (called tweet_id w) = (Raise err, w') ->
  like_tweet (Some c) tweet_id w = (Raise err, w').
Proof.
  intros Hok Hlike Hclass Hinfo. unfold like_tweet, client_like. run.
  rewrite check_tweet_run.
  destruct (check_verdict (get_tweet c tweet_id)) as [ok txt].
  simpl in Hok. subst ok. simpl. rewrite Hlike. simpl. rewrite Hclass.
  unfold called in Hinfo. rewrite Hinfo. reflexivity.
Qed.

Lemma like_tweet_refused c tweet_id w e :
  (check_verdict (get_tweet c tweet_id)).1 = true ->
  like c tweet_id = Raises e ->
  exn_class_of e <> TooManyRequests ->
  exists msg,
    like_tweet (Some c) tweet_id w = (Ret (false, msg), called tweet_id w).
Proof.
  intros Hok Hlike Hclass. unfold like_tweet, client_like. run.
  rewrite check_tweet_run.
  destruct (check_verdict (get_tweet c tweet_id)) as [ok txt].
  simpl in Hok. subst ok. simpl. rewrite Hlike. simpl.
  destruct (exn_class_of e); try congruence; eexists; reflexivity.
Qed.

(** ** The calls on the client *)

Lemma remote_calls_app evs evs' :
  remote_calls (evs ++ evs') = (remote_calls evs ++ remote_calls evs')%list.
Proof. apply List.filter_app. Qed.

Lemma like_tweet_log client tweet_id w :
  log (like_tweet client tweet_id w).2
  = (log w ++ attempt_calls client tweet_id)%list.
Proof.
  destruct client as [c|]; [| simpl; rewrite app_nil_r; reflexivity].
  unfold attempt_calls.
  destruct (check_verdict (get_tweet c tweet_id)).1 eqn:Hok.
  - destruct (like c tweet_id) as [response | e] eqn:Hlike.
    + rewrite (like_tweet_liked _ _ _ _ Hok Hlike). simpl.
      rewrite <- app_assoc. reflexivity.
    + destruct (exn_class_of e) eqn:Hclass.
      1: { destruct (extract_rate_limit_info e (called tweet_id w))
             as [[info | err] w'] eqn:Hinfo;
           destruct (extract_frame _ _ _ _ Hinfo) as (_ & Hlog & _).
           - rewrite (like_tweet_limited _ _ _ _ _ _ Hok Hlike Hclass Hinfo).
             simpl. rewrite Hlog. simpl.
             rewrite <- app_assoc. reflexivity.
           - rewrite (like_tweet_limited_unreadable _ _ _ _ _ _
                        Hok Hlike Hclass Hinfo).
             simpl. rewrite Hlog. simpl.
             rewrite <- app_assoc. reflexivity. }
      all: destruct (like_tweet_refused c tweet_id w e Hok Hlike) as [msg ->];
        [congruence |];
        simpl; rewrite <- app_assoc; reflexivity.
  - rewrite (like_tweet_unverified _ _ _ Hok). reflexivity.
Qed.

Lemma remote_calls_attempt client tweet_id :
  remote_calls (attempt_calls client tweet_id) = attempt_calls client tweet_id.
Proof.
  destruct client as [c|]; simpl; [| reflexivity].
  destruct (check_verdict (get_tweet c tweet_id)).1; reflexivity.
Qed.

Lemma like_tweet_calls client tweet_id w :
  remote_calls (log (like_tweet client tweet_id w).2)
  = (remote_calls (log w) ++ attempt_calls client tweet_id)%list.
Proof.
  rewrite like_tweet_log, remote_calls_app, remote_calls_attempt. reflexivity.
Qed.

Lemma countdown_calls remainings : forall w,
  remote_calls (log (countdown remainings w).2) = remote_calls (log w).
Proof.
  induction remainings as [| remaining rest IH]; intros w; simpl.
  - reflexivity.
  - run. simpl. destruct (default false (cancel_countdown (session w))).
    + reflexivity.
    + unfold time_sleep. rewrite IH. simpl.
      rewrite <- app_assoc, remote_calls_app. simpl. rewrite app_nil_r.
      reflexivity.
Qed.

Lemma countdown_returns remainings : forall w,
  exists exit, (countdown remainings w).1 = Ret exit.
Proof.
  induction remainings as [| remaining rest IH]; intros w; simpl.
  - eexists; reflexivity.
  - run. simpl. destruct (default false (cancel_countdown (session w))).
    + eexists; reflexivity.
    + unfold time_sleep. apply IH.
Qed.

Lemma like_and_report_calls tweet_id w :
  remote_calls (log (like_and_report tweet_id w).2)
  = (remote_calls (log w) ++ attempt_calls (client (session w)) tweet_id)%list.
Proof.
  pose proof (like_tweet_calls (client (session w)) tweet_id w) as Hcalls.
  unfold like_and_report. run.
  destruct (like_tweet (client (session w)) tweet_id w)
    as [[[[] msg] | err] w']; simpl in *;
    rewrite ?remote_calls_app, Hcalls; simpl; rewrite ?app_nil_r; reflexivity.
Qed.

Lemma like_button_no_id w :
  like_button "" w = (Ret tt, logged [StError "Please enter a Tweet ID"] w).
Proof. reflexivity. Qed.

Lemma like_button_blocked tweet_id w reset :
  tweet_id <> "" ->
  rate_limited (session w) = Some true ->
  rate_limit_reset (session w) = Some reset ->
  (clock w (reads w) < inject_Z reset)%Q ->
  like_button tweet_id w
  = (Ret tt,
     logged [StError ("Currently rate limited. Please wait "
                      +:+ fmt_0f (remaining_time reset (clock w (reads w)))
                      +:+ " seconds before trying again.")]
            (clock_read w)).
Proof.
  intros Hid Hlimited Hreset Hnow. unfold like_button. run.
  apply String.eqb_neq in Hid. rewrite Hid, Hlimited. simpl.
  rewrite Hreset. simpl.
  apply remaining_time_pos in Hnow. rewrite Hnow. reflexivity.
Qed.

Lemma like_button_calls tweet_id w :
  remote_calls (log (like_button tweet_id w).2)
  = (remote_calls (log w)
     ++ if String.eqb tweet_id "" || blocked (session w) (clock w (reads w))
        then [] else attempt_calls (client (session w)) tweet_id)%list.
Proof.
  unfold like_button, blocked.
  destruct (String.eqb tweet_id "").
  { simpl. rewrite remote_calls_app. reflexivity. }
  simpl orb. run. simpl.
  destruct (default false (rate_limited (session w))); simpl andb.
  - destruct (rate_limit_reset (session w)) as [reset|]; simpl;
      [| rewrite app_nil_r; reflexivity].
    destruct (Qltb 0 (remaining_time reset (clock w (reads w)))); simpl.
    + rewrite remote_calls_app, !app_nil_r. reflexivity.
    + pose proof (like_and_report_calls tweet_id
        (with_session (set_rate_limited (Some false) (session w))
           (clock_read w))) as Hcalls.
      destruct (like_and_report tweet_id _) as [[ok | err] w']; exact Hcalls.
  - pose proof (like_and_report_calls tweet_id w) as Hcalls.
    destruct (like_and_report tweet_id w) as [[[] | err] w']; simpl in *;
      try exact Hcalls.
    destruct (default false (rate_limited (session w'))); simpl;
      [| exact Hcalls].
    destruct (rate_limit_reset (session w')); simpl; [| exact Hcalls].
    destruct (rate_limit_retry_after (session w')) as [total|]; simpl;
      [| rewrite remote_calls_app, app_nil_r; exact Hcalls].
    pose proof (countdown_calls (range_down total)
                  (logged [StEmpty] w')) as Hloop.
    destruct (countdown (range_down total) (logged [StEmpty] w'))
      as [[exit | err] w'']; simpl in *;
      rewrite ?remote_calls_app, Hloop, remote_calls_app, Hcalls; simpl;
      rewrite ?app_nil_r; reflexivity.
Qed.

(** ** Verification before the write *)


(** C8. When the verification reports the tweet as not found (the fetch
    raises [NotFound], or comes back without data), [like_tweet] returns
    the failure "Cannot like tweet: Tweet not found..." and leaves the
    session state as it was: neither the recorded request times nor the
    rate-limit fields change, and no write call is made. *)
Theorem like_tweet_target_not_found c tweet_id w :
  (get_tweet c tweet_id = Returns None
   \/ exists e, get_tweet c tweet_id = Raises e /\ exn_class_of e = NotFound) ->
  exists reason,
    (reason = "Tweet not found" \/ reason = "Tweet not found or not accessible")
    /\ like_tweet (Some c) tweet_id w
       = (Ret (false, "Cannot like tweet: " +:+ reason),
          logged [CallGetTweet tweet_id] w)
    /\ session (like_tweet (Some c) tweet_id w).2 = session w.
Proof.
  intros Hnot_found.
  assert (exists reason,
            (reason = "Tweet not found"
             \/ reason = "Tweet not found or not accessible")
            /\ check_verdict (get_tweet c tweet_id) = (false, reason))
    as (reason & Hreason & Hverdict).
  { destruct Hnot_found as [-> | (e & -> & Hclass)]; simpl.
    - eexists; split; [right|]; reflexivity.
    - rewrite Hclass. eexists; split; [left|]; reflexivity. }
  exists reason. split; [exact Hreason|].
  rewrite like_tweet_unverified by (rewrite Hverdict; reflexivity).
  rewrite Hverdict. split; reflexivity.
Qed.

(** C10. A rate-limit error raised by the verifying fetch is caught in
    [check_tweet]: [like_tweet] returns the generic failure "Cannot like
    tweet: Error checking tweet: ..." and leaves the session, hence the
    rate-limit fields, untouched.  In any run of [like_tweet] that changes
    the rate-limit fields the tweet was verified and it is the write
    call that raised [TooManyRequests]. *)
Theorem verify_rate_limit_not_recorded c tweet_id w :
  (forall e, get_tweet c tweet_id = Raises e ->
             exn_class_of e = TooManyRequests ->
     like_tweet (Some c) tweet_id w
     = (Ret (false, "Cannot like tweet: Error checking tweet: " +:+ exn_str e),
        logged [CallGetTweet tweet_id] w))
  /\ (forall client,
        active_limit (session (like_tweet client tweet_id w).2)
        <> active_limit (session w) ->
        exists c' data e,
          client = Some c'
          /\ get_tweet c' tweet_id = Returns (Some data)
          /\ like c' tweet_id = Raises e
          /\ exn_class_of e = TooManyRequests).
Proof.
  split.
  - intros e Hraise Hclass.
    rewrite like_tweet_unverified; rewrite Hraise; simpl; rewrite Hclass;
      reflexivity.
  - intros [c'|] Hchanged; [| exfalso; apply Hchanged; reflexivity].
    destruct (check_verdict (get_tweet c' tweet_id)).1 eqn:Hok.
    + assert (exists data, get_tweet c' tweet_id = Returns (Some data))
        as [data Hdata].
      { destruct (get_tweet c' tweet_id) as [[data|]|e]; simpl in Hok.
        - eexists; reflexivity.
        - discriminate.
        - destruct (exn_class_of e); discriminate. }
      destruct (like c' tweet_id) as [response | e] eqn:Hlike.
      * exfalso. apply Hchanged.
        rewrite (like_tweet_liked _ _ _ _ Hok Hlike). reflexivity.
      * destruct (exn_class_of e) eqn:Hclass.
        1: exists c', data, e; repeat split; assumption.
        all: exfalso; apply Hchanged;
          destruct (like_tweet_refused c' tweet_id w e Hok Hlike) as [msg ->];
          [congruence | reflexivity].
    + exfalso. apply Hchanged.
      rewrite (like_tweet_unverified _ _ _ Hok). reflexivity.
Qed.

(** ** The rate-limit window *)

Lemma blocked_active s now reset :
  rate_limited s = Some true ->
  rate_limit_reset s = Some reset ->
  (now < inject_Z reset)%Q ->
  blocked s now = true.
Proof.
  intros Hlimited Hreset Hnow. unfold blocked.
  rewrite Hlimited, Hreset. simpl. apply remaining_time_pos, Hnow.
Qed.

(** C1, as the code has it.  While the rate-limit window is open
    ([rate_limited] set and the clock before [rate_limit_reset]) the "Like
    Tweet" button makes no call on the client, neither the verifying fetch nor
    the write.  With a tweet id it reports the rate limit, with the wait
    [max(reset - now, 0)] computed from the recorded reset time, and
    changes nothing in the session; without one it asks for the id. *)
Theorem like_button_short_circuit tweet_id w reset :
  rate_limited (session w) = Some true ->
  rate_limit_reset (session w) = Some reset ->
  (clock w (reads w) < inject_Z reset)%Q ->
  remote_calls (log (like_button tweet_id w).2) = remote_calls (log w)
  /\ (tweet_id <> "" ->
      like_button tweet_id w
      = (Ret tt,
         logged [StError ("Currently rate limited. Please wait "
                          +:+ fmt_0f (remaining_time reset (clock w (reads w)))
                          +:+ " seconds before trying again.")]
                (clock_read w)))
  /\ (tweet_id = "" ->
      like_button tweet_id w
      = (Ret tt, logged [StError "Please enter a Tweet ID"] w)).
Proof.
  intros Hlimited Hreset Hnow. repeat split.
  - rewrite like_button_calls, (blocked_active _ _ _ Hlimited Hreset Hnow).
    rewrite orb_true_r. apply app_nil_r.
  - intros Hid. apply like_button_blocked; assumption.
  - intros ->. apply like_button_no_id.
Qed.




(** ** The countdown *)

(** C4, as the code has it.  Started for three seconds, the countdown
    that is never cancelled shows the ticks for 3, 2 and 1, sleeping a
    second after each, and leaves its loop by exhaustion; when the host
    sets [cancel_countdown] during the first sleep the loop is left
    through its [break] after that one tick. *)
Theorem countdown_from_three w :
  default false (cancel_countdown (session w)) = false ->
  ((forall n s, default false (cancel_countdown s) = false ->
                default false (cancel_countdown (interference w n s)) = false) ->
   exists w',
     countdown (range_down 3) w = (Ret Completed, w')
     /\ log w'
        = (log w
           ++ [PhMetric "Time until rate limit reset" (countdown_text 3);
               Sleep 1;
               PhMetric "Time until rate limit reset" (countdown_text 2);
               Sleep 1;
               PhMetric "Time until rate limit reset" (countdown_text 1);
               Sleep 1])%list)
  /\ (default false
        (cancel_countdown (interference w (sleeps w) (session w))) = true ->
      exists w',
        countdown (range_down 3) w = (Ret Cancelled, w')
        /\ log w'
           = (log w
              ++ [PhMetric "Time until rate limit reset" (countdown_text 3);
                  Sleep 1])%list).
Proof.
  intros Hstart. destruct w as [s clk rd host sl lg]. simpl in *.
  split.
  - intros Hquiet.
    pose proof (Hquiet sl _ Hstart) as H1.
    pose proof (Hquiet (S sl) _ H1) as H2.
    unfold range_down. simpl. run. unfold time_sleep. simpl.
    rewrite Hstart. simpl. rewrite H1. simpl. rewrite H2. simpl.
    eexists. split; [reflexivity|]. simpl.
    rewrite <- !app_assoc. reflexivity.
  - intros Hcancel.
    unfold range_down. simpl. run. unfold time_sleep. simpl.
    rewrite Hstart. simpl. rewrite Hcancel. simpl.
    eexists. split; [reflexivity|]. simpl.
    rewrite <- !app_assoc. reflexivity.
Qed.

(** ** The recorded request times *)

Lemma recent_successes_record t s :
  (length (recent_successes s) <= 10)%nat ->
  recent_successes (record_request_time t s)
  = drop (length (recent_successes s ++ [t])%list - 10) (recent_successes s ++ [t])%list.
Proof.
  intros Hlen. unfold record_request_time, recent_successes in *. simpl.
  set (l := default [] (last_request_time s)) in *.
  rewrite length_app. simpl.
  destruct (Nat.ltb_spec 10 (length l + 1)) as [Hgt | Hle].
  - replace (length l + 1 - 10)%nat with 1%nat by lia. reflexivity.
  - replace (length l + 1 - 10)%nat with 0%nat by lia. reflexivity.
Qed.

Lemma recent_successes_record_all ts : forall s,
  (length (recent_successes s) <= 10)%nat ->
  recent_successes (record_all ts s)
  = drop (length (recent_successes s ++ ts)%list - 10) (recent_successes s ++ ts)%list.
Proof.
  induction ts as [| t ts IH]; intros s Hlen.
  - simpl. rewrite app_nil_r.
    replace (length (recent_successes s) - 10)%nat with 0%nat by lia. reflexivity.
  - simpl. rewrite IH.
    + rewrite (recent_successes_record t s Hlen).
      set (l := recent_successes s) in *.
      rewrite !length_app, length_drop, length_app. simpl.
      replace (l ++ t :: ts)%list with ((l ++ [t]) ++ ts)%list
        by (rewrite <- app_assoc; reflexivity).
      rewrite <- (drop_app_le (l ++ [t])%list ts) by (rewrite length_app; simpl; lia).
      rewrite drop_drop. f_equal. lia.
    + rewrite (recent_successes_record t s Hlen), length_drop, length_app. simpl. lia.
Qed.

(** C5. Starting from a session without recorded request times, after
    the times [ts] have been recorded one by one the list kept is the
    last [min (length ts) 10] of them, in order: all of them up to ten,
    and beyond ten the oldest are the ones dropped.  A successful
    [like_tweet] records the clock reading in just this way, and
    recording never takes a list of at most ten beyond ten. *)
Theorem recent_successes_window s ts :
  recent_successes s = [] ->
  recent_successes (record_all ts s) = drop (length ts - 10) ts
  /\ length (recent_successes (record_all ts s)) = Nat.min (length ts) 10
  /\ ((length ts <= 10)%nat -> recent_successes (record_all ts s) = ts)
  /\ (forall c tweet_id data response w,
        session w = record_all ts s ->
        get_tweet c tweet_id = Returns (Some data) ->
        like c tweet_id = Returns response ->
        recent_successes (session (like_tweet (Some c) tweet_id w).2)
        = recent_successes (record_all (ts ++ [clock w (reads w)]) s))
  /\ (forall s' t,
        (length (recent_successes s') <= 10)%nat ->
        (length (recent_successes (record_request_time t s')) <= 10)%nat).
Proof.
  intros Hempty.
  assert (recent_successes (record_all ts s) = drop (length ts - 10) ts)
    as Hwindow.
  { rewrite recent_successes_record_all by (rewrite Hempty; simpl; lia).
    rewrite Hempty. reflexivity. }
  repeat split.
  - exact Hwindow.
  - rewrite Hwindow, length_drop. lia.
  - intros Hfew. rewrite Hwindow.
    replace (length ts - 10)%nat with 0%nat by lia. reflexivity.
  - intros c tweet_id data response w Hsession Hdata Hlike.
    rewrite (like_tweet_liked c tweet_id w response);
      [| rewrite Hdata; reflexivity | assumption].
    unfold record_all. rewrite fold_left_app. simpl.
    fold (record_all ts s). rewrite <- Hsession. reflexivity.
  - intros s' t Hlen.
    rewrite (recent_successes_record t s' Hlen), length_drop, length_app.
    simpl. lia.
Qed.

(** ** What a rate-limit error records *)


(** ** The capacity estimate *)


(** ** Authentication *)

Lemma append_empty_r (s : string) : s +:+ "" = s.
Proof.
  induction s as [| a s IH]; [reflexivity|].
  change (String a (s +:+ "") = String a s). f_equal. exact IH.
Qed.

Lemma append_assoc (s1 s2 s3 : string) :
  (s1 +:+ s2) +:+ s3 = s1 +:+ (s2 +:+ s3).
Proof.
  induction s1 as [| a s1 IH]; [reflexivity|].
  change (String a ((s1 +:+ s2) +:+ s3) = String a (s1 +:+ (s2 +:+ s3))).
  f_equal. exact IH.
Qed.

(** The text [authenticate_twitter] makes of an exception. *)
Lemma authenticate_twitter_raises tweepy_Client creds w e :
  get_me (tweepy_Client creds) = Raises e ->
  authenticate_twitter tweepy_Client creds w
  = (Ret (None, false,
          "Authentication failed: " +:+ exn_str e
          +:+ match exn_response e with
              | Some r =>
                nl +:+ "Status: " +:+ str_of_int (status_code r)
                +:+ match text r with
                    | Some t => nl +:+ "Details: " +:+ t
                    | None => ""
                    end
              | None => ""
              end),
     logged [CallGetMe] w).
Proof.
  unfold authenticate_twitter, client_get_me. run.
  intros ->. simpl. do 3 f_equal.
  destruct (exn_response e) as [r|]; simpl.
  - destruct (text r); simpl;
      rewrite ?append_assoc, ?append_empty_r; reflexivity.
  - rewrite append_empty_r. reflexivity.
Qed.


(** The tab makes no call before authentication: it only asks for it. *)
Lemma like_tab_unauthenticated tweet_id pressed w :
  default false (authenticated (session w)) = false ->
  like_tab tweet_id pressed w
  = (Ret tt, logged [StWarning "Please authenticate in the Setup tab first"] w).
Proof.
  intros Hauth. unfold like_tab. run. rewrite Hauth. reflexivity.
Qed.

(** After a failed authentication the "Authenticate" button leaves no
    client in the session. *)
Lemma authenticate_button_failure tweepy_Client creds w e :
  forallb (fun s => negb (String.eqb s ""))
    [bearer_token creds; api_key creds; api_secret creds;
     access_token creds; access_secret creds] = true ->
  get_me (tweepy_Client creds) = Raises e ->
  exists msg,
    authenticate_button tweepy_Client creds w
    = (Ret tt,
       with_session
         (set_user_info None
            (set_client None (set_authenticated (Some false) (session w))))
         (logged [CallGetMe; StError msg] w)).
Proof.
  intros Hfilled Hme.
  unfold authenticate_button. rewrite Hfilled.
  unfold mbind at 1. unfold M_bind.
  change (negb true) with false. cbv beta iota.
  rewrite (authenticate_twitter_raises _ _ _ _ Hme).
  eexists. run. unfold logged, with_session. simpl.
  rewrite <- app_assoc. reflexivity.
Qed.

End Proofs.

(** * The properties on sample runs *)

Section Samples.
#[local] Existing Instance decimal_runtime.

(** C1: the button pressed for tweet 42 at second 1000, with a limit
    on record that resets at second 1200. *)
Lemma like_button_short_circuit_sample :
  rate_limited limited_session = Some true
  /\ rate_limit_reset limited_session = Some 1200
  /\ (1000 < inject_Z 1200)%Q
  /\ like_button "42" (frozen_world limited_session 1000)
     = (Ret tt,
        logged [StError "Currently rate limited. Please wait 200 seconds before trying again."]
               (clock_read (frozen_world limited_session 1000))).
Proof.
  refine (conj eq_refl (conj eq_refl (conj eq_refl _))).
  refine (proj1 (proj2 (like_button_short_circuit "42"
            (frozen_world limited_session 1000) 1200 eq_refl eq_refl eq_refl))
          _).
  discriminate.
Defined.

(** C1 as the spec states it fails on a press without a tweet id: the
    window is open, and what is reported is the missing id, not the rate
    limit. *)
Lemma like_button_without_id_in_window :
  blocked limited_session 1000 = true
  /\ like_button "" (frozen_world limited_session 1000)
     = (Ret tt,
        logged [StError "Please enter a Tweet ID"]
               (frozen_world limited_session 1000))
  /\ forall wait,
       log (like_button "" (frozen_world limited_session 1000)).2
       <> [StError ("Currently rate limited. Please wait " +:+ wait
                    +:+ " seconds before trying again.")].
Proof.
  repeat split. intros wait. discriminate.
Qed.



(** C4: three seconds, never cancelled, and three seconds, cancelled
    during the first sleep. *)
Lemma countdown_from_three_sample :
  (exists w',
     countdown (range_down 3) (frozen_world empty_session 0)
     = (Ret Completed, w')
     /\ log w'
        = [PhMetric "Time until rate limit reset" "00:03"; Sleep 1;
           PhMetric "Time until rate limit reset" "00:02"; Sleep 1;
           PhMetric "Time until rate limit reset" "00:01"; Sleep 1])
  /\ (exists w',
        countdown (range_down 3) (cancelling_world empty_session 0)
        = (Ret Cancelled, w')
        /\ log w' = [PhMetric "Time until rate limit reset" "00:03"; Sleep 1]).
Proof.
  split.
  - exact (proj1 (countdown_from_three (frozen_world empty_session 0) eq_refl)
             (fun _ _ H => H)).
  - exact (proj2 (countdown_from_three (cancelling_world empty_session 0)
                    eq_refl)
             eq_refl).
Defined.

(** C4 as the spec states it fails: the ticks shown for three seconds
    are those of 3, 2 and 1, with none for 0. *)
Lemma countdown_shows_no_zero_tick :
  ticks_shown (log (countdown (range_down 3) (frozen_world empty_session 0)).2)
  = ["00:03"; "00:02"; "00:01"]
  /\ ticks_shown (log (countdown (range_down 3)
                         (frozen_world empty_session 0)).2)
     <> map countdown_text [3; 2; 1; 0].
Proof. split; [reflexivity | discriminate]. Qed.

(** C5: twelve request times recorded from an empty session. *)
Lemma recent_successes_window_sample :
  recent_successes empty_session = []
  /\ recent_successes
       (record_all (map inject_Z [1; 2; 3; 4; 5; 6; 7; 8; 9; 10; 11; 12])
                   empty_session)
     = map inject_Z [3; 4; 5; 6; 7; 8; 9; 10; 11; 12].
Proof.
  split; [reflexivity|].
  exact (proj1 (recent_successes_window empty_session
                  (map inject_Z [1; 2; 3; 4; 5; 6; 7; 8; 9; 10; 11; 12])
                  eq_refl)).
Defined.




(** C8: the fetch of tweet 999 raises [NotFound]. *)
Lemma like_tweet_target_not_found_sample :
  let missing := Exn NotFound "404 Not Found" None in
  let c := sample_client (Raises missing) (Returns "ok") in
  (exists e, get_tweet c "999" = Raises e /\ exn_class_of e = NotFound)
  /\ exists reason,
       (reason = "Tweet not found" \/ reason = "Tweet not found or not accessible")
       /\ like_tweet (Some c) "999" (frozen_world limited_session 1000)
          = (Ret (false, "Cannot like tweet: " +:+ reason),
             logged [CallGetTweet "999"] (frozen_world limited_session 1000))
       /\ session (like_tweet (Some c) "999"
                      (frozen_world limited_session 1000)).2
          = limited_session.
Proof.
  split.
  - eexists. split; reflexivity.
  - exact (like_tweet_target_not_found
             (sample_client (Raises (Exn NotFound "404 Not Found" None))
                (Returns "ok"))
             "999" (frozen_world limited_session 1000)
             (or_intror (ex_intro _ (Exn NotFound "404 Not Found" None)
                           (conj eq_refl eq_refl)))).
Defined.


End Samples.

(** * More properties *)

Section Coverage.
Context {py : PyRuntime}.

Ltac run :=
  unfold attr, py_int in *;
  unfold mbind, M_bind, mret, M_ret, raise, try_except, emit, of_outcome,
    get_session, modify_session, time_time in *.

(** ** [like_tweet] as a whole *)


Lemma verdict_true_data c tweet_id :
  (check_verdict (get_tweet c tweet_id)).1 = true <->
  exists data, get_tweet c tweet_id = Returns (Some data).
Proof.
  destruct (get_tweet c tweet_id) as [[data|]|e]; simpl.
  - split; eauto.
  - split; [discriminate | intros [? ?]; discriminate].
  - split; [destruct (exn_class_of e); discriminate
           | intros [? ?]; discriminate].
Qed.


(** X2. [like_tweet] never touches the client, the authentication flag,
    the identity or the cancellation flag of the session; and unless it
    returns [True] it leaves the recorded request times and the last
    response as they were. *)
Theorem like_tweet_frame handle tweet_id w :
  let s := session w in
  let s' := session (like_tweet handle tweet_id w).2 in
  (client s' = client s
   /\ authenticated s' = authenticated s
   /\ user_info s' = user_info s
   /\ cancel_countdown s' = cancel_countdown s)
  /\ ((forall msg, (like_tweet handle tweet_id w).1 <> Ret (true, msg)) ->
      last_request_time s' = last_request_time s
      /\ last_response s' = last_response s).
Proof.
  destruct handle as [c|]; [| simpl; intuition].
  destruct (check_verdict (get_tweet c tweet_id)).1 eqn:Hok.
  2: { rewrite (like_tweet_unverified _ _ _ Hok). simpl. intuition. }
  destruct (like c tweet_id) as [response | e] eqn:Hlike.
  { rewrite (like_tweet_liked _ _ _ _ Hok Hlike). simpl.
    split; [intuition|]. intros Hnot. exfalso. eapply Hnot. reflexivity. }
  destruct (exn_class_of e) eqn:Hclass.
  1: { destruct (extract_rate_limit_info e (called tweet_id w))
         as [[info | err] w'] eqn:Hinfo;
       destruct (extract_frame _ _ _ _ Hinfo) as (Hsession & _).
       - rewrite (like_tweet_limited _ _ _ _ _ _ Hok Hlike Hclass Hinfo).
         simpl. rewrite Hsession. simpl. intuition.
       - rewrite (like_tweet_limited_unreadable _ _ _ _ _ _
                    Hok Hlike Hclass Hinfo).
         simpl. rewrite Hsession. simpl. intuition. }
  all: destruct (like_tweet_refused c tweet_id w e Hok Hlike) as [msg ->];
    [congruence | simpl; intuition].
Qed.

(** X3. When the write is refused with [TooManyRequests] and the header
    that is read is not an integer, [like_tweet] raises [ValueError] after
    both calls have been made and records nothing: the session is as it
    was. *)
Theorem like_tweet_unreadable_header c tweet_id data e v w :
  get_tweet c tweet_id = Returns (Some data) ->
  like c tweet_id = Raises e ->
  exn_class_of e = TooManyRequests ->
  used_header e = Some v ->
  int_of_str v = None ->
  exists err,
    like_tweet (Some c) tweet_id w = (Raise err, clock_read (called tweet_id w))
    /\ exn_class_of err = ValueError.
Proof.
  intros Hdata Hlike Hclass Hused Hint.
  assert ((check_verdict (get_tweet c tweet_id)).1 = true) as Hok
    by (rewrite Hdata; reflexivity).
  assert (header e "x-rate-limit-reset" = Some v
          \/ header e "x-rate-limit-reset" = None
             /\ header e "retry-after" = Some v) as Hhdr.
  { unfold used_header in Hused.
    destruct (header e "x-rate-limit-reset"); [left | right]; auto. }
  destruct (extract_unreadable e (called tweet_id w) v Hhdr Hint)
    as (err & Herr & Herrclass).
  exists err. split; [| exact Herrclass].
  apply (like_tweet_limited_unreadable _ _ _ _ _ _ Hok Hlike Hclass Herr).
Qed.

(** ** The countdown, in general *)

Lemma countdown_step remaining rest w :
  default false (cancel_countdown (session w)) = false ->
  countdown (remaining :: rest) w
  = countdown rest
      (slept (logged [Sleep 1]
                (logged [PhMetric "Time until rate limit reset"
                                  (countdown_text remaining)] w))).
Proof.
  intros Hgo. simpl. run. simpl. rewrite Hgo. reflexivity.
Qed.

Lemma countdown_break remaining rest w :
  default false (cancel_countdown (session w)) = true ->
  countdown (remaining :: rest) w = (Ret Cancelled, w).
Proof.
  intros Hstop. simpl. run. simpl. rewrite Hstop. reflexivity.
Qed.


(** X4. Whatever the host does, the countdown shows the ticks of the
    first [k] seconds of its range, for some [k], each followed by one
    second of sleep and nothing else; it is left by exhaustion exactly
    when [k] is the whole range, through the [break] otherwise.  It
    reads no clock and makes no call. *)
Theorem countdown_shape remainings : forall w,
  exists k w',
    (k <= length remainings)%nat
    /\ countdown remainings w
       = (Ret (if (k =? length remainings)%nat then Completed else Cancelled),
          w')
    /\ log w' = (log w ++ tick_events (take k remainings))%list
    /\ sleeps w' = (sleeps w + k)%nat
    /\ reads w' = reads w.
Proof.
  induction remainings as [| remaining rest IH]; intros w.
  - exists 0%nat, w. simpl. rewrite app_nil_r. repeat split; lia.
  - destruct (default false (cancel_countdown (session w))) eqn:Hflag.
    + exists 0%nat, w. rewrite (countdown_break _ _ _ Hflag). simpl.
      rewrite app_nil_r. repeat split; lia.
    + rewrite (countdown_step _ _ _ Hflag).
      destruct (IH (slept (logged [Sleep 1]
                  (logged [PhMetric "Time until rate limit reset"
                                    (countdown_text remaining)] w))))
        as (k & w' & Hk & Hrun & Hlog & Hsleeps & Hreads).
      exists (S k), w'. simpl in *. repeat split.
      * lia.
      * exact Hrun.
      * rewrite Hlog, <- !app_assoc. reflexivity.
      * lia.
      * exact Hreads.
Qed.

Lemma countdown_quiet remainings : forall w,
  never_cancels w ->
  default false (cancel_countdown (session w)) = false ->
  exists w',
    countdown remainings w = (Ret Completed, w')
    /\ log w' = (log w ++ tick_events remainings)%list
    /\ sleeps w' = (sleeps w + length remainings)%nat.
Proof.
  induction remainings as [| remaining rest IH]; intros w Hhost Hflag.
  - exists w. simpl. rewrite app_nil_r. repeat split; lia.
  - rewrite (countdown_step _ _ _ Hflag).
    destruct (IH (slept (logged [Sleep 1]
                (logged [PhMetric "Time until rate limit reset"
                                  (countdown_text remaining)] w))))
      as (w' & Hrun & Hlog & Hsleeps).
    + exact Hhost.
    + simpl. apply Hhost, Hflag.
    + exists w'. simpl in *. repeat split.
      * exact Hrun.
      * rewrite Hlog, <- !app_assoc. reflexivity.
      * lia.
Qed.

Lemma range_down_length n : length (range_down n) = Z.to_nat n.
Proof. unfold range_down. rewrite length_map, length_seq. reflexivity. Qed.

Lemma range_down_lookup n i :
  (i < Z.to_nat n)%nat -> range_down n !! i = Some (n - Z.of_nat i).
Proof.
  intros Hi. unfold range_down. rewrite list_lookup_fmap.
  rewrite lookup_seq_lt by exact Hi. reflexivity.
Qed.

(** X5. For every number [n] of seconds, the countdown that is never
    cancelled runs its whole range: it shows [n] ticks when [n] is
    positive, the [i]-th of them for [n - i] seconds left, so from [n]
    down to 1, sleeps one second after each, and is left by exhaustion.
    For [n] at most 0 it does nothing. *)
Theorem countdown_runs_down n w :
  never_cancels w ->
  default false (cancel_countdown (session w)) = false ->
  exists w',
    countdown (range_down n) w = (Ret Completed, w')
    /\ log w' = (log w ++ tick_events (range_down n))%list
    /\ sleeps w' = (sleeps w + Z.to_nat n)%nat
    /\ length (range_down n) = Z.to_nat n
    /\ (forall i, (i < Z.to_nat n)%nat ->
                  range_down n !! i = Some (n - Z.of_nat i))
    /\ (n <= 0 -> w' = w).
Proof.
  intros Hhost Hflag.
  destruct (countdown_quiet (range_down n) w Hhost Hflag)
    as (w' & Hrun & Hlog & Hsleeps).
  exists w'. rewrite range_down_length in Hsleeps.
  repeat split; auto using range_down_length, range_down_lookup.
  intros Hn. unfold range_down in Hrun.
  replace (Z.to_nat n) with 0%nat in Hrun by lia. simpl in Hrun.
  injection Hrun as <-. reflexivity.
Qed.

(** ** The button after a refusal *)






(** X17. On a press made outside any window, an attempt that fails for
    any reason but a rate limit on the write (no client in the session,
    a negative verification, or a write that raises another exception)
    is reported with one error and changes nothing in the session; no
    countdown is run. *)
Theorem like_button_failure_frame tweet_id w :
  tweet_id <> "" ->
  default false (rate_limited (session w)) = false ->
  (client (session w) = None
   \/ (exists c, client (session w) = Some c
                 /\ forall data, get_tweet c tweet_id <> Returns (Some data))
   \/ (exists c e, client (session w) = Some c
                   /\ like c tweet_id = Raises e
                   /\ exn_class_of e <> TooManyRequests)) ->
  exists msg,
    like_button tweet_id w
    = (Ret tt,
       logged (attempt_calls (client (session w)) tweet_id ++ [StError msg]) w).
Proof.
  intros Hid Hfree Hwhy. apply String.eqb_neq in Hid.
  assert (exists msg,
            like_tweet (client (session w)) tweet_id w
            = (Ret (false, msg),
               logged (attempt_calls (client (session w)) tweet_id) w))
    as [msg Hrun].
  { destruct (client (session w)) as [c|] eqn:Hclient.
    2: { eexists. simpl. unfold logged. rewrite app_nil_r.
         destruct w; reflexivity. }
    unfold attempt_calls.
    destruct (check_verdict (get_tweet c tweet_id)).1 eqn:Hok.
    - destruct Hwhy as [Hnone | [(c' & [= <-] & Hneg) | (c' & e & [= <-] & Hlike & Hclass)]].
      + discriminate.
      + exfalso. apply verdict_true_data in Hok as [data Hdata].
        exact (Hneg data Hdata).
      + destruct (like_tweet_refused c tweet_id w e Hok Hlike Hclass)
          as [msg ->].
        exists msg. unfold called, logged. simpl.
        rewrite <- app_assoc. reflexivity.
    - rewrite (like_tweet_unverified _ _ _ Hok). eexists. reflexivity. }
  unfold like_button, like_and_report. rewrite Hid. run. simpl.
  rewrite Hfree, Hrun. simpl. rewrite Hfree.
  exists msg. unfold logged. simpl. rewrite <- app_assoc. reflexivity.
Qed.

(** ** The status column *)

Lemma Qinv_le_contravar a b :
  (0 < a)%Q -> (a <= b)%Q -> (/ b <= / a)%Q.
Proof.
  intros Ha Hab.
  assert (0 < b)%Q as Hb by (eapply Qlt_le_trans; eauto).
  apply Qle_shift_inv_r; [exact Hb|].
  apply Qle_trans with (/ a * a)%Q.
  - rewrite Qmult_comm, Qmult_inv_r; [apply Qle_refl|].
    intros H0. rewrite H0 in Ha. exact (Qlt_irrefl 0 Ha).
  - apply Qmult_le_l; [apply Qinv_lt_0_compat, Ha | exact Hab].
Qed.

Lemma Qmax_one_pos x : (0 < Qmax x 1)%Q.
Proof. eapply Qlt_le_trans; [| apply Q.le_max_r]. reflexivity. Qed.

Lemma requests_per_day_nonneg count :
  (0 <= inject_Z (Z.of_nat count * (24 * 60 * 60)))%Q.
Proof.
  change 0%Q with (inject_Z 0). rewrite <- Zle_Qle. lia.
Qed.

(** X8. The capacity estimate is always between 0 and 50, whatever the
    number of requests and the time span (a span below one second counts
    as one second, so there is no division by zero); for a given number
    of requests it does not decrease as the span grows. *)
Theorem est_remaining_bounds count time_span :
  (0 <= est_remaining count time_span)%Q
  /\ (est_remaining count time_span <= 50)%Q
  /\ (forall time_span',
        (time_span <= time_span')%Q ->
        (est_remaining count time_span <= est_remaining count time_span')%Q).
Proof.
  unfold est_remaining.
  set (requests := inject_Z (Z.of_nat count * (24 * 60 * 60))).
  assert (0 <= requests)%Q as Hrequests by apply requests_per_day_nonneg.
  repeat split.
  - apply Q.le_max_r.
  - apply Q.max_lub; [| discriminate].
    apply Qle_trans with (50 + - 0)%Q; [| discriminate].
    unfold Qminus. apply Qplus_le_r, Qopp_le_compat.
    unfold Qdiv. apply Qmult_le_0_compat; [exact Hrequests|].
    apply Qlt_le_weak, Qinv_lt_0_compat, Qmax_one_pos.
  - intros time_span' Hspan.
    apply Q.max_le_compat_r.
    unfold Qminus. apply Qplus_le_r, Qopp_le_compat.
    unfold Qdiv. rewrite !(Qmult_comm requests).
    apply Qmult_le_compat_r; [| exact Hrequests].
    apply Qinv_le_contravar; [apply Qmax_one_pos|].
    apply Q.max_le_compat_r, Hspan.
Qed.

Lemma capacity_estimate_frame w :
  exists evs w',
    capacity_estimate w = (Ret tt, w')
    /\ session w' = session w
    /\ log w' = (log w ++ evs)%list /\ remote_calls evs = []
    /\ clock w' = clock w
    /\ (reads w' = reads w \/ reads w' = S (reads w)).
Proof.
  unfold capacity_estimate. run.
  destruct (last_request_time (session w)) as [[| oldest rest] |]; simpl.
  - do 2 eexists. repeat split; auto.
  - do 2 eexists. split; [reflexivity|]. simpl.
    rewrite <- app_assoc. repeat split; auto.
  - do 2 eexists. repeat split; auto.
Qed.

Lemma rate_limit_warning_frame w :
  exists evs,
    log (rate_limit_warning w).2 = (log w ++ evs)%list
    /\ remote_calls evs = []
    /\ clock (rate_limit_warning w).2 = clock w
    /\ (reads w <= reads (rate_limit_warning w).2)%nat
    /\ (session (rate_limit_warning w).2 = session w
        \/ session (rate_limit_warning w).2
           = set_rate_limited (Some false) (session w)
           /\ rate_limited (session w) = Some true
           /\ exists reset,
                rate_limit_reset (session w) = Some reset
                /\ (inject_Z reset <= clock w (reads w))%Q).
Proof.
  unfold rate_limit_warning. run. simpl.
  destruct (rate_limited (session w)) as [[|]|] eqn:Hlimited; simpl.
  2,3: exists []; rewrite app_nil_r; repeat split; auto with arith.
  destruct (rate_limit_reset (session w)) as [reset|] eqn:Hreset; simpl.
  2: exists []; rewrite app_nil_r; repeat split; auto with arith.
  destruct (Qleb (remaining_time reset (clock w (reads w))) 0) eqn:Hle; simpl.
  - exists []. rewrite app_nil_r. repeat split; auto with arith.
    right. repeat split; auto. exists reset. split; [reflexivity|].
    apply remaining_time_zero, Hle.
  - rewrite Hreset. simpl. eexists. rewrite <- app_assoc.
    repeat split; auto with arith.
Qed.


(** X9. The status column only looks: it makes no call on the client,
    and the one thing it may change in the session is [rate_limited],
    which it clears when a limit is on record whose reset time the clock
    has reached. *)
Theorem rate_limit_status_frame w :
  let w' := (rate_limit_status w).2 in
  remote_calls (log w') = remote_calls (log w)
  /\ (session w' = session w
      \/ session w' = set_rate_limited (Some false) (session w)
         /\ rate_limited (session w) = Some true
         /\ exists reset n,
              rate_limit_reset (session w) = Some reset
              /\ (n = reads w \/ n = S (reads w))
              /\ (inject_Z reset <= clock w n)%Q).
Proof.
  destruct (capacity_estimate_frame w)
    as (evs & w1 & Hrun & Hsession & Hlog & Hcalls & Hclock & Hreads).
  destruct (rate_limit_warning_frame w1)
    as (evs' & Hlog' & Hcalls' & _ & _ & Hfinal).
  unfold rate_limit_status. unfold mbind, M_bind.
  rewrite Hrun. cbv zeta. split.
  - rewrite Hlog', Hlog, !remote_calls_app, Hcalls, Hcalls', !app_nil_r.
    reflexivity.
  - rewrite Hsession, Hclock in Hfinal.
    destruct Hfinal as [Hsame | (Hcleared & Hlimited & reset & Hreset & Hnow)].
    + left. exact Hsame.
    + right. repeat split; auto. exists reset, (reads w1).
      repeat split; auto.
Qed.

(** ** The tab *)


(** ** Authentication *)

Lemma authenticate_button_unfilled tweepy_Client creds w :
  filled creds = false ->
  authenticate_button tweepy_Client creds w
  = (Ret tt, logged [StError "Please fill in all credentials"] w).
Proof.
  unfold filled, authenticate_button. intros ->. reflexivity.
Qed.

Lemma default_credentials_unfilled sec key :
  In key ["bearer_token"; "api_key"; "api_secret"; "access_token";
          "access_secret"] ->
  default_credential sec key = "" ->
  filled (default_credentials sec) = false.
Proof.
  unfold filled, default_credentials. simpl.
  intros [<- | [<- | [<- | [<- | [<- | []]]]]] ->; simpl;
    repeat match goal with
           | |- context [negb (?x =? "")] => destruct (negb (x =? ""))
           end; reflexivity.
Qed.

(** X11. With any of the five credentials blank the "Authenticate"
    button makes no call and changes nothing: it only asks for the
    credentials.  This is the case for the values the inputs start
    with whenever the secrets lack one of the five keys of the
    [twitter] section, or hold it empty. *)
Theorem authenticate_button_needs_credentials tweepy_Client w :
  (forall creds,
     filled creds = false ->
     authenticate_button tweepy_Client creds w
     = (Ret tt, logged [StError "Please fill in all credentials"] w))
  /\ (forall sec key,
        In key ["bearer_token"; "api_key"; "api_secret"; "access_token";
                "access_secret"] ->
        default_credential sec key = "" ->
        authenticate_button tweepy_Client (default_credentials sec) w
        = (Ret tt, logged [StError "Please fill in all credentials"] w)).
Proof.
  split.
  - intros creds. apply authenticate_button_unfilled.
  - intros sec key Hkey Hblank.
    apply authenticate_button_unfilled.
    apply (default_credentials_unfilled sec key Hkey Hblank).
Qed.

Lemma authenticate_twitter_succeeds tweepy_Client creds w u :
  get_me (tweepy_Client creds) = Returns (Some u) ->
  exists msg,
    authenticate_twitter tweepy_Client creds w
    = (Ret (Some (tweepy_Client creds), true, msg), logged [CallGetMe] w).
Proof.
  unfold authenticate_twitter, client_get_me. run.
  intros ->. eexists. reflexivity.
Qed.

Lemma authenticate_twitter_no_identity tweepy_Client creds w :
  get_me (tweepy_Client creds) = Returns None ->
  authenticate_twitter tweepy_Client creds w
  = (Ret (None, false,
          "Authentication successful but couldn't fetch user details"),
     logged [CallGetMe] w).
Proof.
  unfold authenticate_twitter, client_get_me. run.
  intros ->. reflexivity.
Qed.

(** X12. With all credentials filled in, the "Authenticate" button
    never raises and touches neither the rate-limit fields nor the
    recorded request times.  When the identity call gives an identity it
    stores the client, sets [authenticated] and has made the identity
    call twice; otherwise it has made it once and leaves no client, no
    identity and [authenticated] false.  So after a press
    [authenticated] is set exactly when a client is stored. *)
Theorem authenticate_button_outcome tweepy_Client creds w :
  filled creds = true ->
  exists w',
    authenticate_button tweepy_Client creds w = (Ret tt, w')
    /\ active_limit (session w') = active_limit (session w)
    /\ last_request_time (session w') = last_request_time (session w)
    /\ ((exists u, get_me (tweepy_Client creds) = Returns (Some u))
        /\ client (session w') = Some (tweepy_Client creds)
        /\ authenticated (session w') = Some true
        /\ remote_calls (log w')
           = (remote_calls (log w) ++ [CallGetMe; CallGetMe])%list
        \/ (forall u, get_me (tweepy_Client creds) <> Returns (Some u))
           /\ client (session w') = None
           /\ authenticated (session w') = Some false
           /\ user_info (session w') = None
           /\ remote_calls (log w')
              = (remote_calls (log w) ++ [CallGetMe])%list).
Proof.
  unfold filled. intros Hfilled.
  unfold authenticate_button. rewrite Hfilled.
  unfold mbind at 1. unfold M_bind. change (negb true) with false.
  cbv beta iota.
  destruct (get_me (tweepy_Client creds)) as [[u|]|e] eqn:Hme.
  - destruct (authenticate_twitter_succeeds _ creds w u Hme) as [msg ->].
    unfold client_get_me. run. simpl. rewrite Hme. simpl.
    eexists. split; [reflexivity|]. simpl. repeat split.
    left. repeat split; [eauto|].
    rewrite <- !app_assoc, !remote_calls_app. simpl. reflexivity.
  - rewrite (authenticate_twitter_no_identity _ creds w Hme).
    run. simpl.
    eexists. split; [reflexivity|]. simpl. repeat split.
    right. repeat split; [congruence|].
    rewrite <- !app_assoc, !remote_calls_app. simpl. reflexivity.
  - rewrite (authenticate_twitter_raises _ creds w e Hme).
    run. simpl.
    eexists. split; [reflexivity|]. simpl. repeat split.
    right. repeat split; [congruence|].
    rewrite <- !app_assoc, !remote_calls_app. simpl. reflexivity.
Qed.

(** ** [get_rate_limit_status] *)

(** X13. [get_rate_limit_status] never raises and never changes the
    session.  Whatever the client does, it reads the clock once and
    answers with ["Unknown"] remaining and a reset time 180 seconds
    after that reading.  It never makes the write call: it makes the
    identity call (when there is a client) and, when that gives an
    identity, fetches tweet ["1"], whose outcome it ignores. *)
Theorem get_rate_limit_status_estimate client w :
  exists info evs,
    get_rate_limit_status client w = (Ret info, clock_read (logged evs w))
    /\ status_remaining info = "Unknown"
    /\ status_reset_time info = int_of_float (clock w (reads w)) + 180
    /\ (forall tweet_id, ~ In (CallLike tweet_id) evs)
    /\ (forall c u,
          client = Some c -> get_me c = Returns (Some u) ->
          evs = [CallGetMe; CallGetTweet "1"]
          /\ info = RateLimitStatus (Some (user_id u)) "Unknown"
                      "50 likes per 24 hours (standard)"
                      (int_of_float (clock w (reads w)) + 180))
    /\ ((forall c u, client = Some c -> get_me c <> Returns (Some u)) ->
        info = RateLimitStatus None "Unknown" "Unknown"
                 (int_of_float (clock w (reads w)) + 180)
        /\ remote_calls evs = match client with
                              | Some _ => [CallGetMe]
                              | None => []
                              end).
Proof.
  unfold get_rate_limit_status, client_get_me, client_get_tweet. run.
  destruct client as [c|]; simpl.
  - destruct (get_me c) as [[u|]|e] eqn:Hme; simpl.
    + assert (forall c' u', Some c = Some c' ->
                get_me c' = Returns (Some u') -> u' = u) as Hsame.
      { intros c' u' [= <-] Hme'. congruence. }
      destruct (get_tweet c "1") as [fetched | e]; simpl;
        do 2 eexists;
        (split; [unfold clock_read, logged; simpl;
                 rewrite <- ?app_assoc; reflexivity|]);
        simpl;
        (split; [reflexivity|]); (split; [reflexivity|]);
        (split; [intros ? [|[|[]]]; discriminate|]);
        (split; [intros c' u' Hc Hu; rewrite (Hsame c' u' Hc Hu);
                 split; reflexivity
                | intros Hnone; exfalso; eapply Hnone; eauto]).
    + do 2 eexists. split; [reflexivity|]. simpl.
      split; [reflexivity|]. split; [reflexivity|].
      split; [intros ? [|[]]; discriminate|].
      split; [intros c' u' [= <-]; congruence | intros _; split; reflexivity].
    + do 2 eexists.
      split; [unfold clock_read, logged; simpl;
              rewrite <- ?app_assoc; reflexivity|].
      simpl. split; [reflexivity|]. split; [reflexivity|].
      split; [intros ? [|[|[]]]; discriminate|].
      split; [intros c' u' [= <-]; congruence | intros _; split; reflexivity].
  - do 2 eexists. split; [reflexivity|]. simpl.
    split; [reflexivity|]. split; [reflexivity|].
    split; [intros ? [|[]]; discriminate|].
    split; [intros c' u'; discriminate | intros _; split; reflexivity].
Qed.

(** ** The password gate *)

Lemma type_password_run sec typed expected s :
  expected_password sec = Some expected ->
  type_password sec typed s
  = Some (if String.eqb typed expected
          then PasswordState None (Some true)
          else PasswordState (Some typed) (Some false)).
Proof.
  unfold expected_password, type_password, password_entered. simpl.
  destruct (sec !! "app") as [app|]; simpl; [| discriminate].
  intros ->. simpl. destruct (String.eqb typed expected); reflexivity.
Qed.

(** X14. When the secrets hold a password, typing it makes
    [check_password] answer [True], show nothing more, and removes the
    typed text from the session state; typing anything else makes it
    answer [False] with the input and the error shown, and the typed
    text stays in the session state. *)
Theorem type_password_outcome sec typed expected s :
  expected_password sec = Some expected ->
  exists s',
    type_password sec typed s = Some s'
    /\ (typed = expected ->
        check_password s' = (true, []) /\ password s' = None)
    /\ (typed <> expected ->
        check_password s' = (false, [PasswordInput; PasswordIncorrect])
        /\ password s' = Some typed).
Proof.
  intros Hexpected. rewrite (type_password_run _ _ _ _ Hexpected).
  eexists. split; [reflexivity|].
  destruct (String.eqb_spec typed expected) as [Heq | Hne]; split;
    intros H; try contradiction; split; reflexivity.
Qed.

(** X15. After any number of attempts only the last one counts:
    [check_password] answers [True] exactly when the last text typed is
    the password of the secrets. *)
Theorem type_passwords_last sec typed last expected s :
  expected_password sec = Some expected ->
  exists s',
    type_passwords sec (typed ++ [last]) s = Some s'
    /\ ((check_password s').1 = true <-> last = expected).
Proof.
  intros Hexpected. revert s.
  induction typed as [| t rest IH]; intros s; simpl.
  - rewrite (type_password_run _ _ _ _ Hexpected). simpl.
    eexists. split; [reflexivity|].
    destruct (String.eqb_spec last expected) as [Heq | Hne]; simpl;
      split; auto; discriminate.
  - rewrite (type_password_run _ _ _ _ Hexpected). simpl. apply IH.
Qed.

(** X16. When the secrets have no [app] section, or no [password] in
    it, every attempt, whatever is typed and whatever the state, ends in
    the [KeyError] of the callback: no attempt can be accepted. *)
Theorem type_password_missing_secret sec typed s :
  expected_password sec = None ->
  type_password sec typed s = None.
Proof.
  unfold expected_password, type_password, password_entered. simpl.
  intros Hmissing.
  destruct (sec !! "app") as [app|]; simpl in *; [| reflexivity].
  rewrite Hmissing. reflexivity.
Qed.

End Coverage.

(** * The further properties on sample runs *)

Section CoverageSamples.
#[local] Existing Instance decimal_runtime.

(** X3: a retry-after header that holds a date. *)
Lemma like_tweet_unreadable_header_sample :
  let e := too_many_requests
             {["retry-after" := "Wed, 21 Oct 2015 07:28:00 GMT"]} in
  let c := sample_client found (Raises e) in
  let w := frozen_world limited_session 1000 in
  used_header e = Some "Wed, 21 Oct 2015 07:28:00 GMT"
  /\ int_of_str "Wed, 21 Oct 2015 07:28:00 GMT" = None
  /\ exists err,
       like_tweet (Some c) "42" w = (Raise err, clock_read (called "42" w))
       /\ exn_class_of err = ValueError.
Proof.
  refine (conj eq_refl (conj eq_refl _)).
  exact (like_tweet_unreadable_header
           (sample_client found
              (Raises (too_many_requests
                 {["retry-after" := "Wed, 21 Oct 2015 07:28:00 GMT"]})))
           "42" (Tweet (Some "hello"))
           (too_many_requests
              {["retry-after" := "Wed, 21 Oct 2015 07:28:00 GMT"]})
           "Wed, 21 Oct 2015 07:28:00 GMT"
           (frozen_world limited_session 1000)
           eq_refl eq_refl eq_refl eq_refl eq_refl).
Defined.

(** X5: a countdown of 125 seconds in a world at rest. *)
Lemma countdown_runs_down_sample :
  never_cancels (frozen_world empty_session 0)
  /\ exists w',
       countdown (range_down 125) (frozen_world empty_session 0)
       = (Ret Completed, w')
       /\ sleeps w' = 125%nat.
Proof.
  split; [exact (fun _ _ H => H)|].
  destruct (countdown_runs_down 125 (frozen_world empty_session 0)
              (fun _ _ H => H) eq_refl)
    as (w' & Hrun & _ & Hsleeps & _).
  exists w'. split; [exact Hrun | exact Hsleeps].
Defined.



(** X17: a press for a tweet whose write is forbidden. *)
Lemma like_button_failure_frame_sample :
  let e := Exn Forbidden "403 Forbidden" None in
  let c := sample_client found (Raises e) in
  let w := frozen_world (set_client (Some c) empty_session) 1000 in
  default false (rate_limited (session w)) = false
  /\ like c "42" = Raises e
  /\ exists msg,
       like_button "42" w
       = (Ret tt,
          logged (attempt_calls (client (session w)) "42" ++ [StError msg]) w).
Proof.
  refine (conj eq_refl (conj eq_refl _)).
  apply (like_button_failure_frame "42"
           (frozen_world
              (set_client
                 (Some (sample_client found
                          (Raises (Exn Forbidden "403 Forbidden" None))))
                 empty_session) 1000)).
  - discriminate.
  - reflexivity.
  - right. right. do 2 eexists.
    split; [reflexivity|]. split; [reflexivity | discriminate].
Defined.

(** X12: credentials all filled in, and a client that knows who it is. *)
Lemma authenticate_button_outcome_sample :
  let creds := Credentials "b" "k" "s" "t" "a" in
  let mk := fun _ : credentials => sample_client found (Returns "ok") in
  filled creds = true
  /\ exists w',
       authenticate_button mk creds (frozen_world empty_session 1000)
       = (Ret tt, w')
       /\ active_limit (session w') = active_limit empty_session.
Proof.
  split; [reflexivity|].
  destruct (authenticate_button_outcome
              (fun _ => sample_client found (Returns "ok"))
              (Credentials "b" "k" "s" "t" "a")
              (frozen_world empty_session 1000) eq_refl)
    as (w' & Hrun & Hlimit & _).
  exists w'. split; [exact Hrun | exact Hlimit].
Defined.

(** X14: the password typed right. *)
Lemma type_password_outcome_sample :
  expected_password sample_secrets = Some "sesame"
  /\ exists s',
       type_password sample_secrets "sesame" (PasswordState None None) = Some s'
       /\ check_password s' = (true, [])
       /\ password s' = None.
Proof.
  split; [reflexivity|].
  destruct (type_password_outcome sample_secrets "sesame" "sesame"
              (PasswordState None None) eq_refl)
    as (s' & Hrun & Hright & _).
  exists s'. split; [exact Hrun | exact (Hright eq_refl)].
Defined.

(** X15: two wrong attempts, then the right one. *)
Lemma type_passwords_last_sample :
  expected_password sample_secrets = Some "sesame"
  /\ exists s',
       type_passwords sample_secrets (["open"; "please"] ++ ["sesame"])
                      (PasswordState None None) = Some s'
       /\ ((check_password s').1 = true <-> "sesame" = "sesame").
Proof.
  split; [reflexivity|].
  exact (type_passwords_last sample_secrets ["open"; "please"] "sesame"
           "sesame" (PasswordState None None) eq_refl).
Defined.

(** X16: secrets without an [app] section. *)
Lemma type_password_missing_secret_sample :
  expected_password ∅ = None
  /\ type_password ∅ "sesame" (PasswordState None None) = None.
Proof.
  split; [reflexivity|].
  exact (type_password_missing_secret ∅ "sesame" (PasswordState None None)
           eq_refl).
Defined.

End CoverageSamples.
